(** * Crypto portfolio tracker: the holding manager and the valuation engine

    A shallow embedding of [crypto_portfolio.py] (class [CryptoPortfolio]).

    Modelling choices, all read off the source:
    - a number (amount, price, value) is an exact rational [Qc], with no
      rounding; Python's [/] raises [ZeroDivisionError] on a zero divisor,
      so division returns an [option]. The rounding of float arithmetic,
      the [OverflowError] of very large integers and the values [inf] and
      [nan] are outside these numbers; where [nan] decides, in saving and
      loading, the module [Py] has it;
    - a price record returned by [get_price] is a Python dict from field
      names to numbers, here a [gmap string Qc]; the empty dict is the
      answer for an unknown coin or a failed request;
    - [self.portfolio] is a record of two lists; [list.append] is [++ [x]]
      and [list.pop(i)] is positional deletion;
    - the object, the file it is saved to, the wall clock and the lines
      printed form an explicit [World] threaded through every method;
    - [display_portfolio] is the list of lines it prints, and a round of
      the menu of [main] takes the lines typed as already parsed. *)

From Stdlib Require Import QArith Qcanon.
From stdpp Require Import base option list strings gmap.

Open Scope Qc_scope.

(** ** Numbers *)

(** Python [a / b]: [None] stands for [ZeroDivisionError]. *)
Definition truediv (a b : Qc) : option Qc :=
  if decide (b = 0) then None else Some (a / b).

(** Python [a > b] as a boolean. *)
Definition gt (a b : Qc) : bool := bool_decide (b < a).

(** An integer literal of the source, as a number. *)
Definition num (z : Z) : Qc := Q2Qc (inject_Z z).

(** The literal [100]. *)
Definition hundred : Qc := num 100.

(** Python [sum(xs)]: a left fold of [+] starting at [0]. *)
Definition sum (xs : list Qc) : Qc := foldl Qcplus 0 xs.

(** ** Data model *)

(** [datetime.now().isoformat()] is a string. *)
Definition timestamp : Type := string.

(** An element of [portfolio['holdings']], built in [add_holding]. *)
Module Holding.
Record t : Type := mk {
  coin_id : string;
  coin_name : string;
  symbol : string;
  amount : Qc;
  buy_price : Qc;
  date_added : timestamp
}.
End Holding.

(** An element of [portfolio['transactions']], built in [add_holding]. *)
Module Transaction.
Record t : Type := mk {
  type : string;
  coin_id : string;
  amount : Qc;
  price : Qc;
  date : timestamp
}.
End Transaction.

(** [self.portfolio]: the dict [{'holdings': [...], 'transactions': [...]}]. *)
Module Portfolio.
Record t : Type := mk {
  holdings : list Holding.t;
  transactions : list Transaction.t
}.

(** The value [load_portfolio] falls back to. *)
Definition empty : t := mk [] [].
End Portfolio.

(** An element of [holdings_data] in [calculate_portfolio_value]. *)
Module ValuationRow.
Record t : Type := mk {
  symbol : string;
  coin_name : string;
  amount : Qc;
  buy_price : Qc;
  current_price : Qc;
  current_value : Qc;
  invested : Qc;
  profit_loss : Qc;
  profit_loss_pct : Qc;
  change_24h : Qc
}.
End ValuationRow.

(** The dict returned by [calculate_portfolio_value]. *)
Module Valuation.
Record t : Type := mk {
  total_value : Qc;
  total_invested : Qc;
  total_profit_loss : Qc;
  total_profit_loss_pct : Qc;
  holdings : list ValuationRow.t
}.
End Valuation.

(** ** The price source *)

(** A price record: the dict [{'usd': .., 'usd_24h_change': .., ..}]. *)
Abbreviation price_data := (gmap string Qc).

(** What [requests.get(..)] followed by [raise_for_status()] and [.json()]
    yields for one request: an exception, or the decoded body, a dict from
    coin ids to price records. *)
Inductive response : Type :=
  | Raised
  | Returned (body : gmap string price_data).

(** The remote service, asked for one coin id at a time. *)
Abbreviation service := (string → response).

(** [get_price]: the body's entry for [coin_id], [{}] when the body has
    none, and [{}] when the request raised. The line the [except] branch
    prints is not part of the value returned and is left out. *)
Definition get_price (api : service) (coin_id : string) : price_data :=
  match api coin_id with
  | Returned body => default ∅ (body !! coin_id)
  | Raised => ∅
  end.

(** ** The valuation engine *)

(** The three variables the loop of [calculate_portfolio_value] updates. *)
Record totals : Type := mkTotals {
  total_value : Qc;
  total_invested : Qc;
  holdings_data : list ValuationRow.t
}.

(** [(p / i * 100) if i > 0 else 0]; the conditional expression evaluates
    the division only when the test holds. *)
Definition pct_or_zero (p i : Qc) : option Qc :=
  if gt i 0 then q ← truediv p i; Some (q * hundred) else Some 0.

(** The dict appended to [holdings_data] for a holding and its non-empty
    price record. *)
Definition make_row (holding : Holding.t) (price_data : price_data)
  : option ValuationRow.t :=
  let current_price := default 0 (price_data !! "usd") in
  let change_24h := default 0 (price_data !! "usd_24h_change") in
  let current_value := Holding.amount holding * current_price in
  let invested := Holding.amount holding * Holding.buy_price holding in
  let profit_loss := current_value - invested in
  profit_loss_pct ← pct_or_zero profit_loss invested;
  Some (ValuationRow.mk
          (Holding.symbol holding) (Holding.coin_name holding)
          (Holding.amount holding) (Holding.buy_price holding)
          current_price current_value invested profit_loss
          profit_loss_pct change_24h).

(** One iteration of [for holding in self.portfolio['holdings']]. *)
Definition loop_body (api : service) (st : totals) (holding : Holding.t)
  : option totals :=
  let price_data := get_price api (Holding.coin_id holding) in
  if decide (price_data = ∅) then Some st (* continue *)
  else
    row ← make_row holding price_data;
    Some (mkTotals
            (total_value st + ValuationRow.current_value row)
            (total_invested st + ValuationRow.invested row)
            (holdings_data st ++ [row])).

(** A [for] loop whose body may raise. *)
Fixpoint for_in {S A : Type} (body : S → A → option S) (xs : list A) (st : S)
  : option S :=
  match xs with
  | [] => Some st
  | x :: xs' => st' ← body st x; for_in body xs' st'
  end.

(** [calculate_portfolio_value]; [None] stands for an escaping
    [ZeroDivisionError]. *)
Definition calculate_portfolio_value (api : service) (p : Portfolio.t)
  : option Valuation.t :=
  st ← for_in (loop_body api) (Portfolio.holdings p) (mkTotals 0 0 []);
  let total_profit_loss := total_value st - total_invested st in
  total_profit_loss_pct ← pct_or_zero total_profit_loss (total_invested st);
  Some (Valuation.mk (total_value st) (total_invested st) total_profit_loss
          total_profit_loss_pct (holdings_data st)).

(** ** The holding manager *)

(** [str.upper()] on the ASCII range: a letter of [a..z] moves to [A..Z],
    every other byte is kept. *)
Definition upper_ascii (c : Ascii.ascii) : Ascii.ascii :=
  let n := Ascii.nat_of_ascii c in
  if ((97 <=? n) && (n <=? 122))%nat then Ascii.ascii_of_nat (n - 32) else c.

Fixpoint upper (s : string) : string :=
  match s with
  | EmptyString => EmptyString
  | String c s' => String (upper_ascii c) (upper s')
  end.

(** [list.pop(index)] with Python's indexing: a negative index counts from
    the end, and [None] stands for [IndexError]. *)
Definition pop {A : Type} (l : list A) (index : Z) : option (A * list A) :=
  let len := Z.of_nat (length l) in
  let i := (if decide (index < 0) then index + len else index)%Z in
  if decide (0 ≤ i < len)%Z
  then x ← l !! Z.to_nat i; Some (x, delete (Z.to_nat i) l)
  else None.

(** The lines the methods print, one constructor per format string. *)
Inductive message : Type :=
  | Added (amount : Qc) (symbol : string) (buy_price : Qc)
  | Removed (symbol : string)
  | InvalidIndex.

(** [json.dump] and [json.load] of the standard library: a writer to file
    contents and a reader that may raise. *)
Class Json : Type := {
  text : Type;
  json_dump : Portfolio.t → text;
  json_load : text → option Portfolio.t
}.

Section Manager.
Context `{Json}.

(** The object ([filename], [portfolio]) and what its methods reach: the
    files on disk, the wall clock as the sequence of its readings with
    the number of readings taken so far, and the lines printed. *)
Record World : Type := mkWorld {
  filename : string;
  portfolio : Portfolio.t;
  files : gmap string text;
  clock : nat → timestamp;
  reads : nat;
  stdout : list message
}.

Definition set_portfolio (p : Portfolio.t) (w : World) : World :=
  mkWorld (filename w) p (files w) (clock w) (reads w) (stdout w).

Definition print (m : message) (w : World) : World :=
  mkWorld (filename w) (portfolio w) (files w) (clock w) (reads w)
    (stdout w ++ [m]).

(** [datetime.now().isoformat()]: the next reading of the clock. *)
Definition datetime_now (w : World) : timestamp * World :=
  (clock w (reads w),
   mkWorld (filename w) (portfolio w) (files w) (clock w) (S (reads w))
     (stdout w)).

(** [load_portfolio]; [None] stands for an exception of [json.load]. *)
Definition load_portfolio (w : World) : option Portfolio.t :=
  match files w !! filename w with
  | Some f => json_load f
  | None => Some Portfolio.empty
  end.

(** [save_portfolio]: the file is rewritten whole. *)
Definition save_portfolio (w : World) : World :=
  mkWorld (filename w) (portfolio w)
    (<[filename w := json_dump (portfolio w)]> (files w))
    (clock w) (reads w) (stdout w).

(** [self.portfolio['holdings'].append(holding)] *)
Definition append_holding (holding : Holding.t) (w : World) : World :=
  set_portfolio
    (Portfolio.mk (Portfolio.holdings (portfolio w) ++ [holding])
       (Portfolio.transactions (portfolio w))) w.

(** [self.portfolio['transactions'].append(transaction)] *)
Definition append_transaction (transaction : Transaction.t) (w : World)
  : World :=
  set_portfolio
    (Portfolio.mk (Portfolio.holdings (portfolio w))
       (Portfolio.transactions (portfolio w) ++ [transaction])) w.

(** [add_holding] *)
Definition add_holding (coin_id coin_name symbol : string)
    (amount buy_price : Qc) (w : World) : World :=
  let '(date_added, w) := datetime_now w in
  let holding :=
    Holding.mk coin_id coin_name (upper symbol) amount buy_price date_added in
  let w := append_holding holding w in
  let '(date, w) := datetime_now w in
  let transaction := Transaction.mk "buy" coin_id amount buy_price date in
  let w := append_transaction transaction w in
  let w := save_portfolio w in
  print (Added amount (upper symbol) buy_price) w.

(** [remove_holding]; [None] stands for an [IndexError] of [pop]. *)
Definition remove_holding (index : Z) (w : World) : option World :=
  let holdings := Portfolio.holdings (portfolio w) in
  if decide (0 ≤ index < Z.of_nat (length holdings))%Z then
    '(removed, holdings') ← pop holdings index;
    let w :=
      set_portfolio
        (Portfolio.mk holdings' (Portfolio.transactions (portfolio w))) w in
    let w := save_portfolio w in
    Some (print (Removed (Holding.symbol removed)) w)
  else Some (print InvalidIndex w).

End Manager.

(** ** What the valuation engine computes *)

(** The percentage the guarded division yields. *)
Definition pct (p i : Qc) : Qc := if gt i 0 then p / i * hundred else 0.

(** A holding is priced when [get_price] answers a non-empty record. *)
Definition priced (api : service) (holding : Holding.t) : Prop :=
  get_price api (Holding.coin_id holding) ≠ ∅.

#[global] Instance priced_dec api holding : Decision (priced api holding).
Proof. unfold priced. apply _. Defined.

(** The row of a holding and a price record, field by field. *)
Definition row_of (holding : Holding.t) (pd : price_data) : ValuationRow.t :=
  let current_price := default 0 (pd !! "usd") in
  let current_value := Holding.amount holding * current_price in
  let invested := Holding.amount holding * Holding.buy_price holding in
  ValuationRow.mk
    (Holding.symbol holding) (Holding.coin_name holding)
    (Holding.amount holding) (Holding.buy_price holding)
    current_price current_value invested (current_value - invested)
    (pct (current_value - invested) invested)
    (default 0 (pd !! "usd_24h_change")).

(** The rows of a sequence of holdings: the priced ones, each mapped to
    its row, in the order of the sequence. *)
Definition rows (api : service) (hs : list Holding.t) : list ValuationRow.t :=
  (λ h, row_of h (get_price api (Holding.coin_id h))) <$> filter (priced api) hs.

(** ** Sample data *)

Definition btc : Holding.t :=
  Holding.mk "bitcoin" "Bitcoin" "BTC" (num 2) (num 100) "2024-05-01T09:30:00.000001".

Definition eth_free : Holding.t :=
  Holding.mk "ethereum" "Ethereum" "ETH" (num 3) 0 "2024-05-02T10:00:00.000001".

Definition doge_short : Holding.t :=
  Holding.mk "dogecoin" "Dogecoin" "DOGE" (- num 5) (num 4) "2024-05-03T11:00:00.000001".

Definition ghost : Holding.t :=
  Holding.mk "ghostcoin" "Ghost" "GST" (num 7) (num 9) "2024-05-04T12:00:00.000001".

(** A service that knows three coins; the record of [dogecoin] has no
    [usd] field, and any other coin is missing from the body. *)
Definition market : service := λ _,
  Returned {[ "bitcoin" := {[ "usd" := num 150; "usd_24h_change" := num 1 ]};
              "ethereum" := {[ "usd" := num 10 ]};
              "dogecoin" := {[ "usd_market_cap" := num 1000 ]} ]}.

(** ** Sample worlds *)

(** A store whose file content is the document itself. *)
Definition document_json : Json :=
  {| text := Portfolio.t; json_dump := λ p, p; json_load := Some |}.

(** A clock that advances by one microsecond between two readings. *)
Definition ticking : nat → timestamp := λ n,
  match n with
  | O => "2024-06-01T12:00:00.000001"
  | _ => "2024-06-01T12:00:00.000002"
  end.

Definition fresh : @World document_json :=
  mkWorld "portfolio.json" Portfolio.empty ∅ ticking 0 [].

Definition bought : @World document_json :=
  add_holding "bitcoin" "Bitcoin" "btc" (num 2) (num 100) fresh.

(** Three purchases in a row. *)
Definition stocked : @World document_json :=
  add_holding "dogecoin" "Dogecoin" "doge" (num 500) (num 1)
    (add_holding "ethereum" "Ethereum" "eth" (num 3) (num 10) bought).

(** ** The portfolio as the Python object that is saved and loaded *)

(** The records above hold exact numbers. The object [json.dump] writes
    and [json.load] builds holds Python floats, and [float(input(..))] of
    [main] also accepts [inf], [-inf] and [nan]; Python's [==], with which
    a loaded portfolio is compared to the one in memory, tells them apart.
    This module has the portfolio with such numbers, its [==], and
    [load_portfolio] and [save_portfolio] on it. *)
Module Py.

(** A float: a finite value or one of the three special ones. *)
Inductive number : Type :=
  | Finite (q : Qc)
  | Inf
  | NegInf
  | NaN.

Record holding : Type := mkHolding {
  coin_id : string;
  coin_name : string;
  symbol : string;
  amount : number;
  buy_price : number;
  date_added : timestamp
}.

Record transaction : Type := mkTransaction {
  type : string;
  tx_coin_id : string;
  tx_amount : number;
  price : number;
  date : timestamp
}.

Record portfolio : Type := mkPortfolio {
  holdings : list holding;
  transactions : list transaction
}.

(** [{'holdings': [], 'transactions': []}] *)
Definition empty : portfolio := mkPortfolio [] [].








(** [json.dump] and [json.load] on this object. *)
Class Json : Type := {
  text : Type;
  json_dump : portfolio → text;
  json_load : text → option portfolio
}.

(** [save_portfolio], for the object's [filename] and [portfolio] and the
    files on disk. *)
Definition save_portfolio `{Json} (filename : string) (p : portfolio)
    (files : gmap string text) : gmap string text :=
  <[filename := json_dump p]> files.

(** [load_portfolio], which reads [filename] only; [None] stands for an
    exception of [json.load]. *)
Definition load_portfolio `{Json} (filename : string)
    (files : gmap string text) : option portfolio :=
  match files !! filename with
  | Some f => json_load f
  | None => Some empty
  end.






End Py.

(** ** The rest of the class and the menu *)

(** [CryptoPortfolio(filename)], built in the environment of [w] (its
    files, clock and output): [__init__] stores the file name and loads
    the portfolio; [None] stands for an exception of [json.load]. *)
Definition init `{Json} (name : string) (w : World) : option World :=
  let self := mkWorld name Portfolio.empty (files w) (clock w) (reads w) (stdout w) in
  p ← load_portfolio self;
  Some (set_portfolio p self).

(** A call of one of the two mutating methods, and a sequence of calls on
    one object. *)
Inductive call : Type :=
  | AddHolding (coin_id coin_name symbol : string) (amount buy_price : Qc)
  | RemoveHolding (index : Z).

Definition do_call `{Json} (w : World) (c : call) : option World :=
  match c with
  | AddHolding coin_id coin_name symbol amount buy_price =>
      Some (add_holding coin_id coin_name symbol amount buy_price w)
  | RemoveHolding index => remove_holding index w
  end.

Definition run `{Json} (cs : list call) (w : World) : option World :=
  for_in do_call cs w.

(** The number of [add_holding] calls in a sequence. *)
Definition is_add (c : call) : bool :=
  match c with AddHolding _ _ _ _ _ => true | RemoveHolding _ => false end.

Definition adds (cs : list call) : nat := length (filter (λ c, is_add c) cs).

(** Every holding has its purchase in the log: a transaction of type
    [buy] with the holding's coin id, amount and price. *)
Definition logged (p : Portfolio.t) : Prop :=
  Forall
    (λ h, Exists
            (λ t, Transaction.type t = "buy"
                  ∧ Transaction.coin_id t = Holding.coin_id h
                  ∧ Transaction.amount t = Holding.amount h
                  ∧ Transaction.price t = Holding.buy_price h)
            (Portfolio.transactions p))
    (Portfolio.holdings p).

(** An element of the list under ['coins'] in a search answer. *)
Module Coin.
Record t : Type := mk {
  id : string;
  name : string;
  symbol : string
}.
End Coin.

(** What the search request yields: an exception, or the decoded body,
    whose ['coins'] entry may be missing. *)
Inductive search_response : Type :=
  | SearchRaised
  | SearchReturned (coins : option (list Coin.t)).

Abbreviation search_service := (string → search_response).

(** [search_coin]: [response.json().get('coins', [])[:5]], and [[]] when
    the request raised. The line the [except] branch prints is left out. *)
Definition search_coin (api : search_service) (query : string) : list Coin.t :=
  match api query with
  | SearchReturned coins => take 5 (default [] coins)
  | SearchRaised => []
  end.

(** Python [a >= b] as a boolean. *)
Definition ge (a b : Qc) : bool := bool_decide (b ≤ a).

(** [enumerate(xs, start)] *)
Fixpoint enumerate {A : Type} (xs : list A) (start : Z) : list (Z * A) :=
  match xs with
  | [] => []
  | x :: xs' => (start, x) :: enumerate xs' (start + 1)%Z
  end.

(** The lines [display_portfolio] prints, one constructor per [print]; a
    formatted number is kept as the number, and a marker as the boolean
    that chooses it ([true] for the green circle and the rising chart). *)
Inductive display_line : Type :=
  | EmptyNotice
  | Rule
  | Title
  | Header
  | Dashes
  | HoldingLine (i : Z) (row : ValuationRow.t) (pl_color change_color : bool)
  | TotalValueLine (total_value : Qc)
  | TotalInvestedLine (total_invested : Qc)
  | TotalProfitLossLine (total_color : bool) (total_profit_loss pct : Qc).

(** [display_portfolio], as the list of lines printed; [None] stands for
    an exception escaping [calculate_portfolio_value]. *)
Definition display_portfolio (api : service) (p : Portfolio.t)
  : option (list display_line) :=
  match Portfolio.holdings p with
  | [] => Some [EmptyNotice]
  | _ =>
      stats ← calculate_portfolio_value api p;
      Some ([Rule; Title; Rule; Header; Dashes]
            ++ ((λ '(i, holding),
                   HoldingLine i holding
                     (ge (ValuationRow.profit_loss holding) 0)
                     (ge (ValuationRow.change_24h holding) 0))
                  <$> enumerate (Valuation.holdings stats) 1)
            ++ [Dashes;
                TotalValueLine (Valuation.total_value stats);
                TotalInvestedLine (Valuation.total_invested stats);
                TotalProfitLossLine (ge (Valuation.total_profit_loss stats) 0)
                  (Valuation.total_profit_loss stats)
                  (Valuation.total_profit_loss_pct stats);
                Rule])
  end.

(** How one round of the menu of [main] ends: with one of its three
    rejection lines, with an exception that no [except] clause catches, or
    with the object as the method called left it. *)
Inductive outcome `{Json} : Type :=
  | NoCoinsFound
  | InvalidSelection
  | InvalidInput
  | Uncaught
  | Completed (w : World).

(** [main], option 2. The lines typed are given as what [int(..)] and
    [float(..)] make of them, [None] standing for [ValueError]; the two
    numbers are read only once the selection is in range. *)
Definition menu_add `{Json} (api : search_service) (query : string)
    (typed : option Z) (amount buy_price : option Qc) (w : World) : outcome :=
  let results := search_coin api query in
  match results with
  | [] => NoCoinsFound
  | _ =>
      match typed with
      | None => InvalidInput
      | Some n =>
          let coin_idx := (n - 1)%Z in
          if decide (0 ≤ coin_idx < Z.of_nat (length results))%Z then
            match results !! Z.to_nat coin_idx, amount, buy_price with
            | None, _, _ => Uncaught
            | Some _, None, _ => InvalidInput
            | Some _, Some _, None => InvalidInput
            | Some selected, Some amount, Some buy_price =>
                Completed
                  (add_holding (Coin.id selected) (Coin.name selected)
                     (Coin.symbol selected) amount buy_price w)
            end
          else InvalidSelection
      end
  end.

(** [main], option 3, after the portfolio was displayed: the number typed
    is taken as counting from one. *)
Definition menu_remove `{Json} (typed : option Z) (w : World) : outcome :=
  match typed with
  | None => InvalidInput
  | Some n =>
      match remove_holding (n - 1)%Z w with
      | Some w' => Completed w'
      | None => Uncaught
      end
  end.

(** ** More sample data *)

(** A search that finds seven coins for any query. *)
Definition seven_coins : search_service := λ _,
  SearchReturned
    (Some [Coin.mk "bitcoin" "Bitcoin" "btc"; Coin.mk "bitcoin-cash" "Bitcoin Cash" "bch";
           Coin.mk "wrapped-bitcoin" "Wrapped Bitcoin" "wbtc";
           Coin.mk "bitcoin-sv" "Bitcoin SV" "bsv"; Coin.mk "bitcoin-gold" "Bitcoin Gold" "btg";
           Coin.mk "bitcoin-2" "Bitcoin 2" "btc2"; Coin.mk "bitcoin-god" "Bitcoin God" "god"]).

(** A service whose every request fails. *)
Definition offline : service := λ _, Raised.

(** A world whose first holding has no price on [market]. *)
Definition haunted : @World document_json :=
  add_holding "bitcoin" "Bitcoin" "btc" (num 2) (num 100)
    (add_holding "ghostcoin" "Ghost" "gst" (num 7) (num 9) fresh).

(** ** Lemmas about the valuation engine *)

Section Arithmetic.

Lemma Qclt_irrefl a : ¬ a < a.
Proof. intros Ha. by apply Qclt_not_eq in Ha. Qed.

Lemma gt_spec a b : gt a b = true ↔ b < a.
Proof. unfold gt. apply bool_decide_eq_true. Qed.

Lemma gt_irrefl a : gt a a = false.
Proof.
  unfold gt. apply bool_decide_eq_false. apply Qclt_irrefl.
Qed.

Lemma gt_negative a : a < 0 → gt a 0 = false.
Proof.
  intros Ha. unfold gt. apply bool_decide_eq_false. intros Hpos.
  apply (Qclt_irrefl 0). by apply Qclt_trans with a.
Qed.

Lemma truediv_nonzero a b : b ≠ 0 → truediv a b = Some (a / b).
Proof. intros Hb. unfold truediv. by destruct (decide (b = 0)). Qed.

(** The guard makes the division safe: no [ZeroDivisionError]. *)
Lemma pct_or_zero_total p i : pct_or_zero p i = Some (pct p i).
Proof.
  unfold pct_or_zero, pct. destruct (gt i 0) eqn:Hgt; [|done].
  apply gt_spec in Hgt. rewrite truediv_nonzero; [done|].
  intros ->. by apply (Qclt_irrefl 0).
Qed.

Lemma pct_zero p : pct p 0 = 0.
Proof. unfold pct. by rewrite gt_irrefl. Qed.

Lemma pct_negative p i : i < 0 → pct p i = 0.
Proof. intros Hi. unfold pct. by rewrite gt_negative. Qed.

Lemma sum_app xs ys : sum (xs ++ ys) = sum xs + sum ys.
Proof.
  unfold sum. rewrite foldl_app. generalize (foldl Qcplus 0 xs) as a.
  induction ys as [|y ys IH] using rev_ind; intros a; simpl.
  - ring.
  - rewrite !foldl_app. simpl. rewrite IH. ring.
Qed.


End Arithmetic.

Section Engine.
Variable api : service.

Lemma make_row_total holding pd : make_row holding pd = Some (row_of holding pd).
Proof. unfold make_row. by rewrite pct_or_zero_total. Qed.

Lemma rows_nil : rows api [] = [].
Proof. done. Qed.

Lemma rows_cons_priced h hs :
  priced api h →
  rows api (h :: hs) = row_of h (get_price api (Holding.coin_id h)) :: rows api hs.
Proof. intros Hp. unfold rows. by rewrite filter_cons_True. Qed.

Lemma rows_cons_unpriced h hs : ¬ priced api h → rows api (h :: hs) = rows api hs.
Proof. intros Hp. unfold rows. by rewrite filter_cons_False. Qed.

Lemma rows_app hs1 hs2 : rows api (hs1 ++ hs2) = rows api hs1 ++ rows api hs2.
Proof. unfold rows. by rewrite filter_app, fmap_app. Qed.

(** One iteration: an unpriced holding leaves the three variables as
    they are, a priced one adds its row and its two amounts. *)
Lemma loop_body_unpriced st h : ¬ priced api h → loop_body api st h = Some st.
Proof.
  intros Hp. unfold loop_body.
  destruct (decide (get_price api (Holding.coin_id h) = ∅)); [done|].
  by destruct Hp.
Qed.

Lemma loop_body_priced st h :
  priced api h →
  loop_body api st h =
    let row := row_of h (get_price api (Holding.coin_id h)) in
    Some (mkTotals (total_value st + ValuationRow.current_value row)
            (total_invested st + ValuationRow.invested row)
            (holdings_data st ++ [row])).
Proof.
  intros Hp. unfold loop_body.
  destruct (decide (get_price api (Holding.coin_id h) = ∅)) as [He|_].
  - by destruct Hp.
  - by rewrite make_row_total.
Qed.

(** The loop as a whole, from any values of its variables. *)
Lemma for_in_loop_body hs st :
  for_in (loop_body api) hs st =
    Some (mkTotals
            (foldl Qcplus (total_value st)
               (ValuationRow.current_value <$> rows api hs))
            (foldl Qcplus (total_invested st)
               (ValuationRow.invested <$> rows api hs))
            (holdings_data st ++ rows api hs)).
Proof.
  revert st. induction hs as [|h hs IH]; intros st; simpl.
  - rewrite rows_nil, app_nil_r. by destruct st.
  - destruct (decide (priced api h)) as [Hp|Hp].
    + rewrite loop_body_priced by done. simpl. rewrite IH.
      rewrite rows_cons_priced by done. simpl.
      by rewrite <- app_assoc.
    + rewrite loop_body_unpriced by done. simpl. rewrite IH.
      by rewrite rows_cons_unpriced.
Qed.

(** [calculate_portfolio_value] always returns, and returns this. *)
Lemma calculate_portfolio_value_eq p :
  calculate_portfolio_value api p =
    let rs := rows api (Portfolio.holdings p) in
    let tv := sum (ValuationRow.current_value <$> rs) in
    let ti := sum (ValuationRow.invested <$> rs) in
    Some (Valuation.mk tv ti (tv - ti) (pct (tv - ti) ti) rs).
Proof.
  unfold calculate_portfolio_value. rewrite for_in_loop_body. simpl.
  by rewrite pct_or_zero_total.
Qed.

Lemma filter_length_eq {A} (P : A → Prop) `{∀ x, Decision (P x)} (l : list A) :
  length (filter P l) = length l ↔ Forall P l.
Proof.
  induction l as [|x l IH]; simpl.
  - split; [constructor|done].
  - destruct (decide (P x)) as [Hx|Hx].
    + rewrite filter_cons_True by done. simpl. rewrite Forall_cons.
      split.
      * intros Hl. split; [done|]. apply IH. lia.
      * intros [_ Hl]. apply IH in Hl. lia.
    + rewrite filter_cons_False by done. rewrite Forall_cons. split.
      * intros Hl. pose proof (length_filter P l). lia.
      * intros [? _]. done.
Qed.

Lemma filter_priced_idemp hs :
  rows api (filter (priced api) hs) = rows api hs.
Proof.
  unfold rows. f_equal. induction hs as [|h hs IH]; [done|].
  destruct (decide (priced api h)).
  - rewrite !filter_cons_True by done. by rewrite IH.
  - by rewrite filter_cons_False.
Qed.

End Engine.

Example scenario_one_holding :
  ∃ v r, calculate_portfolio_value market (Portfolio.mk [btc] []) = Some v
    ∧ Valuation.holdings v = [r]
    ∧ ValuationRow.current_value r = num 300
    ∧ ValuationRow.invested r = num 200
    ∧ ValuationRow.profit_loss r = num 100
    ∧ ValuationRow.profit_loss_pct r = num 50.
Proof.
  rewrite calculate_portfolio_value_eq. eexists _, _. split; [done|].
  split; [done|]. repeat split; apply Qc_is_canon; reflexivity.
Qed.

Example scenario_empty_portfolio (api : service) :
  calculate_portfolio_value api Portfolio.empty = Some (Valuation.mk 0 0 0 0 []).
Proof.
  rewrite calculate_portfolio_value_eq. reflexivity.
Qed.

(** Two holdings of one coin stay two rows, and the unknown coin between
    them leaves no row. *)
Example scenario_duplicates :
  ∃ v, calculate_portfolio_value market (Portfolio.mk [btc; ghost; btc] []) = Some v
    ∧ ValuationRow.symbol <$> Valuation.holdings v = ["BTC"; "BTC"]
    ∧ Valuation.total_value v = num 600
    ∧ Valuation.total_invested v = num 400.
Proof.
  rewrite calculate_portfolio_value_eq. eexists. split; [done|].
  split; [done|]. split; apply Qc_is_canon; reflexivity.
Qed.

(** ** Claims about the valuation engine *)

(** C1. [calculate_portfolio_value] returns for every portfolio and every
    price source; its rows are the rows of the priced holdings, one per
    such holding, in the order of the holdings and with no merging of
    equal coin ids; the unpriced holdings add nothing, since dropping them
    from the portfolio gives the same result; so there are at most as many
    rows as holdings, and as many exactly when every holding is priced. *)
Theorem valuate_rows (api : service) (p : Portfolio.t) :
  ∃ v, calculate_portfolio_value api p = Some v
    ∧ Valuation.holdings v =
        (λ h, row_of h (get_price api (Holding.coin_id h)))
          <$> filter (priced api) (Portfolio.holdings p)
    ∧ calculate_portfolio_value api
        (Portfolio.mk (filter (priced api) (Portfolio.holdings p))
           (Portfolio.transactions p)) = Some v
    ∧ (length (Valuation.holdings v) ≤ length (Portfolio.holdings p))%nat
    ∧ (length (Valuation.holdings v) = length (Portfolio.holdings p)
       ↔ Forall (priced api) (Portfolio.holdings p)).
Proof.
  rewrite !calculate_portfolio_value_eq. simpl. eexists. split; [done|].
  simpl. split; [done|]. split.
  { by rewrite filter_priced_idemp. }
  unfold rows. rewrite length_fmap. split.
  - apply length_filter.
  - apply filter_length_eq.
Qed.

(** C2. In the result of [calculate_portfolio_value] the row of a priced
    holding has [current_value = amount * usd] for the [usd] of its price
    record, [invested = amount * buy_price] and
    [profit_loss = current_value - invested]; [total_value] and
    [total_invested] are the sums of [current_value] and of [invested]
    over the rows returned, and
    [total_profit_loss = total_value - total_invested]. *)
Theorem valuate_arithmetic (api : service) (p : Portfolio.t) :
  ∃ v, calculate_portfolio_value api p = Some v
    ∧ Forall2
        (λ h r,
           ValuationRow.current_value r =
             Holding.amount h
             * default 0 (get_price api (Holding.coin_id h) !! "usd")
           ∧ ValuationRow.invested r = Holding.amount h * Holding.buy_price h
           ∧ ValuationRow.profit_loss r =
               ValuationRow.current_value r - ValuationRow.invested r)
        (filter (priced api) (Portfolio.holdings p)) (Valuation.holdings v)
    ∧ Valuation.total_value v =
        sum (ValuationRow.current_value <$> Valuation.holdings v)
    ∧ Valuation.total_invested v =
        sum (ValuationRow.invested <$> Valuation.holdings v)
    ∧ Valuation.total_profit_loss v =
        Valuation.total_value v - Valuation.total_invested v.
Proof.
  rewrite calculate_portfolio_value_eq. simpl. eexists. split; [done|].
  simpl. split; [|done].
  unfold rows. apply Forall2_fmap_r, Forall_Forall2_diag, Forall_forall.
  intros h _. done.
Qed.

(** C4. No division by zero happens: [calculate_portfolio_value] returns;
    the row of a priced holding whose [buy_price] is [0] has
    [profit_loss_pct = 0], and [total_profit_loss_pct] is [0] when
    [total_invested] is [0]. *)
Theorem zero_buy_price_pct (api : service) (p : Portfolio.t) :
  ∃ v, calculate_portfolio_value api p = Some v
    ∧ Forall2
        (λ h r, Holding.buy_price h = 0 → ValuationRow.profit_loss_pct r = 0)
        (filter (priced api) (Portfolio.holdings p)) (Valuation.holdings v)
    ∧ (Valuation.total_invested v = 0 → Valuation.total_profit_loss_pct v = 0).
Proof.
  rewrite calculate_portfolio_value_eq. simpl. eexists. split; [done|].
  simpl. split.
  - unfold rows. apply Forall2_fmap_r, Forall_Forall2_diag, Forall_forall.
    intros h _ Hb. simpl. rewrite Hb, Qcmult_0_r. apply pct_zero.
  - intros ->. apply pct_zero.
Qed.

(** The claim at a portfolio whose priced holding was bought at price 0:
    its row and the totals both show 0 percent. *)
Lemma zero_buy_price_pct_witness :
  ∃ v, calculate_portfolio_value market (Portfolio.mk [ghost; eth_free] []) = Some v
    ∧ ValuationRow.profit_loss_pct <$> Valuation.holdings v = [0]
    ∧ Valuation.total_profit_loss_pct v = 0.
Proof.
  destruct (zero_buy_price_pct market (Portfolio.mk [ghost; eth_free] []))
    as (v & Hv & Hrows & Htotal).
  exists v. split; [exact Hv|].
  rewrite calculate_portfolio_value_eq in Hv. injection Hv as <-.
  split.
  - apply Forall2_cons_1 in Hrows as [Hrow _].
    exact (f_equal (λ x, [x]) (Hrow eq_refl)).
  - apply Htotal. apply Qc_is_canon. reflexivity.
Defined.

(** C10. The guard is strict: the row of a priced holding whose
    [invested = amount * buy_price] is negative has [profit_loss_pct = 0],
    and [total_profit_loss_pct] is [0] when [total_invested] is negative. *)
Theorem negative_invested_pct (api : service) (p : Portfolio.t) :
  ∃ v, calculate_portfolio_value api p = Some v
    ∧ Forall2
        (λ h r,
           ValuationRow.invested r = Holding.amount h * Holding.buy_price h
           ∧ (Holding.amount h * Holding.buy_price h < 0 →
              ValuationRow.profit_loss_pct r = 0))
        (filter (priced api) (Portfolio.holdings p)) (Valuation.holdings v)
    ∧ (Valuation.total_invested v < 0 → Valuation.total_profit_loss_pct v = 0).
Proof.
  rewrite calculate_portfolio_value_eq. simpl. eexists. split; [done|].
  simpl. split.
  - unfold rows. apply Forall2_fmap_r, Forall_Forall2_diag, Forall_forall.
    intros h _. split; [done|]. intros Hneg. simpl. by apply pct_negative.
  - intros Hneg. by apply pct_negative.
Qed.

(** The claim at a portfolio with one short position (amount -5 bought at
    4, so invested is -20). *)
Lemma negative_invested_pct_witness :
  ∃ v, calculate_portfolio_value market (Portfolio.mk [doge_short] []) = Some v
    ∧ ValuationRow.invested <$> Valuation.holdings v = [- num 20]
    ∧ ValuationRow.profit_loss_pct <$> Valuation.holdings v = [0]
    ∧ Valuation.total_profit_loss_pct v = 0.
Proof.
  destruct (negative_invested_pct market (Portfolio.mk [doge_short] []))
    as (v & Hv & Hrows & Htotal).
  exists v. split; [exact Hv|].
  rewrite calculate_portfolio_value_eq in Hv. injection Hv as <-.
  apply Forall2_cons_1 in Hrows as [[_ Hrow] _].
  split; [|split].
  - reflexivity.
  - exact (f_equal (λ x, [x]) (Hrow eq_refl)).
  - apply Htotal. reflexivity.
Defined.



(** ** Lemmas about the holding manager *)

Lemma upper_ascii_not_lower c :
  let n := Ascii.nat_of_ascii (upper_ascii c) in
  ((97 <=? n) && (n <=? 122))%nat = false.
Proof. destruct c as [[] [] [] [] [] [] [] []]; reflexivity. Qed.

Lemma upper_idemp s : upper (upper s) = upper s.
Proof.
  induction s as [|c s IH]; simpl; [done|]. rewrite IH. f_equal.
  unfold upper_ascii at 1. by rewrite upper_ascii_not_lower.
Qed.

Lemma pop_in_range {A} (l : list A) (index : Z) :
  (0 ≤ index < Z.of_nat (length l))%Z →
  ∃ x, l !! Z.to_nat index = Some x
    ∧ pop l index = Some (x, take (Z.to_nat index) l ++ drop (S (Z.to_nat index)) l).
Proof.
  intros Hi. destruct (lookup_lt_is_Some_2 l (Z.to_nat index)) as [x Hx]; [lia|].
  exists x. split; [done|]. unfold pop.
  destruct (decide (index < 0)%Z); [lia|].
  destruct (decide (0 ≤ index < Z.of_nat (length l))%Z); [|done].
  rewrite Hx. simpl. by rewrite delete_take_drop.
Qed.

(** ** Claims about the holding manager *)

(** C3, as stated, fails: on a clock that moves between its two readings
    the holding and the transaction appended by one call carry different
    timestamps. *)
Lemma add_holding_timestamps_differ :
  ∃ h t, last (Portfolio.holdings (portfolio bought)) = Some h
    ∧ last (Portfolio.transactions (portfolio bought)) = Some t
    ∧ Holding.date_added h ≠ Transaction.date t.
Proof.
  eexists _, _. split; [reflexivity|]. split; [reflexivity|].
  simpl. discriminate.
Qed.

(** C3, amended. [add_holding] reads the clock twice: the appended
    holding's [date_added] is the first reading and the appended
    transaction's [date] is the one after it, so the two are equal exactly
    when these two readings are. *)
Theorem add_holding_timestamps `{Json} (coin_id coin_name symbol : string)
    (amount buy_price : Qc) (w : World) :
  let w' := add_holding coin_id coin_name symbol amount buy_price w in
  ∃ h t, Portfolio.holdings (portfolio w') = Portfolio.holdings (portfolio w) ++ [h]
    ∧ Portfolio.transactions (portfolio w') =
        Portfolio.transactions (portfolio w) ++ [t]
    ∧ Holding.date_added h = clock w (reads w)
    ∧ Transaction.date t = clock w (S (reads w))
    ∧ reads w' = S (S (reads w))
    ∧ (Holding.date_added h = Transaction.date t
       ↔ clock w (reads w) = clock w (S (reads w))).
Proof.
  simpl. eexists _, _. split; [reflexivity|]. split; [reflexivity|]. done.
Qed.

(** C7. [add_holding] appends one holding, with the symbol in upper case
    and the other fields as passed, and one transaction of type [buy] with
    the holding's coin id, amount and price; both sequences grow by one
    and their earlier elements stay where they were. *)
Theorem add_holding_appends `{Json} (coin_id coin_name symbol : string)
    (amount buy_price : Qc) (w : World) :
  let w' := add_holding coin_id coin_name symbol amount buy_price w in
  ∃ h t, Portfolio.holdings (portfolio w') = Portfolio.holdings (portfolio w) ++ [h]
    ∧ Portfolio.transactions (portfolio w') =
        Portfolio.transactions (portfolio w) ++ [t]
    ∧ Holding.symbol h = upper symbol
    ∧ upper (Holding.symbol h) = Holding.symbol h
    ∧ Holding.coin_id h = coin_id
    ∧ Holding.coin_name h = coin_name
    ∧ Holding.amount h = amount
    ∧ Holding.buy_price h = buy_price
    ∧ Transaction.type t = "buy"
    ∧ Transaction.coin_id t = Holding.coin_id h
    ∧ Transaction.amount t = Holding.amount h
    ∧ Transaction.price t = Holding.buy_price h
    ∧ length (Portfolio.holdings (portfolio w')) =
        S (length (Portfolio.holdings (portfolio w)))
    ∧ length (Portfolio.transactions (portfolio w')) =
        S (length (Portfolio.transactions (portfolio w)))
    ∧ (∀ i, (i < length (Portfolio.holdings (portfolio w)))%nat →
         Portfolio.holdings (portfolio w') !! i =
           Portfolio.holdings (portfolio w) !! i)
    ∧ (∀ i, (i < length (Portfolio.transactions (portfolio w)))%nat →
         Portfolio.transactions (portfolio w') !! i =
           Portfolio.transactions (portfolio w) !! i).
Proof.
  simpl. eexists _, _. split; [reflexivity|]. split; [reflexivity|]. simpl.
  rewrite upper_idemp, !length_app. simpl.
  repeat (split; [done || lia|]).
  split; intros i Hi; by rewrite lookup_app_l.
Qed.

(** C5. For an index outside [0 ≤ index < len(holdings)], negative ones
    and [len(holdings)] included, [remove_holding] returns without an
    exception, its only effect is the printed line [Invalid index], and so
    the holdings, the transactions and the file are as before. *)
Theorem remove_holding_out_of_range `{Json} (index : Z) (w : World) :
  ¬ (0 ≤ index < Z.of_nat (length (Portfolio.holdings (portfolio w))))%Z →
  ∃ w', remove_holding index w = Some w'
    ∧ stdout w' = stdout w ++ [InvalidIndex]
    ∧ Portfolio.holdings (portfolio w') = Portfolio.holdings (portfolio w)
    ∧ Portfolio.transactions (portfolio w') = Portfolio.transactions (portfolio w)
    ∧ files w' = files w.
Proof.
  intros Hi. unfold remove_holding.
  destruct (decide _) as [Hin|_]; [by destruct Hi|].
  by eexists.
Qed.

(** The claim at the world with three holdings, for the index
    [len(holdings) = 3] and for the index [-1], which [pop] alone would
    accept. *)
Lemma remove_holding_out_of_range_witness :
  (∃ w', remove_holding 3 stocked = Some w'
     ∧ stdout w' = stdout stocked ++ [InvalidIndex]
     ∧ Portfolio.holdings (portfolio w') = Portfolio.holdings (portfolio stocked)
     ∧ Portfolio.transactions (portfolio w') =
         Portfolio.transactions (portfolio stocked)
     ∧ files w' = files stocked)
  ∧ (∃ w', remove_holding (-1) stocked = Some w'
     ∧ stdout w' = stdout stocked ++ [InvalidIndex]
     ∧ Portfolio.holdings (portfolio w') = Portfolio.holdings (portfolio stocked)
     ∧ Portfolio.transactions (portfolio w') =
         Portfolio.transactions (portfolio stocked)
     ∧ files w' = files stocked)
  ∧ is_Some (pop (Portfolio.holdings (portfolio stocked)) (-1)).
Proof.
  split; [|split].
  - apply (remove_holding_out_of_range 3 stocked). simpl. lia.
  - apply (remove_holding_out_of_range (-1) stocked). simpl. lia.
  - by eexists.
Defined.

(** C6. For an index with [0 ≤ index < len(holdings)], [remove_holding]
    returns, the holdings become [holdings[:index] + holdings[index+1:]],
    and the transactions are as before. *)
Theorem remove_holding_in_range `{Json} (index : Z) (w : World) :
  (0 ≤ index < Z.of_nat (length (Portfolio.holdings (portfolio w))))%Z →
  ∃ w', remove_holding index w = Some w'
    ∧ Portfolio.holdings (portfolio w') =
        take (Z.to_nat index) (Portfolio.holdings (portfolio w))
        ++ drop (S (Z.to_nat index)) (Portfolio.holdings (portfolio w))
    ∧ Portfolio.transactions (portfolio w') = Portfolio.transactions (portfolio w).
Proof.
  intros Hi. unfold remove_holding.
  destruct (decide _) as [_|Hout]; [|by destruct Hout].
  destruct (pop_in_range _ _ Hi) as (x & _ & ->). simpl. by eexists.
Qed.

(** The claim at the world with three holdings and index 1: the middle
    holding goes and the three transactions stay. *)
Lemma remove_holding_in_range_witness :
  ∃ w', remove_holding 1 stocked = Some w'
    ∧ Holding.symbol <$> Portfolio.holdings (portfolio w') = ["BTC"; "DOGE"]
    ∧ Transaction.coin_id <$> Portfolio.transactions (portfolio w') =
        ["bitcoin"; "ethereum"; "dogecoin"].
Proof.
  destruct (remove_holding_in_range 1 stocked) as (w' & Hw' & Hh & Ht).
  - simpl. lia.
  - exists w'. split; [exact Hw'|]. rewrite Hh, Ht. split; reflexivity.
Defined.

(** ** The claim about saving and loading *)

Section PythonEquality.








End PythonEquality.




(** ** Further properties of the valuation engine *)

Lemma get_price_unanswered (api : service) (c : string) :
  (api c = Raised
   ∨ ∃ body, api c = Returned body ∧ (body !! c = None ∨ body !! c = Some ∅)) →
  get_price api c = ∅.
Proof.
  unfold get_price. intros [-> | (body & -> & [-> | ->])]; done.
Qed.

Lemma rows_unpriced (api : service) (hs : list Holding.t) :
  Forall (λ h, get_price api (Holding.coin_id h) = ∅) hs → rows api hs = [].
Proof.
  induction 1 as [|h hs Hh _ IH]; [done|].
  rewrite rows_cons_unpriced; [done|]. intros Hp. by apply Hp.
Qed.

(** X1. When the request fails for every holding, or its answer has no
    entry or an empty entry for the coin, [calculate_portfolio_value]
    still returns: all four totals are 0 and there is no row. *)
Theorem valuate_unanswered (api : service) (p : Portfolio.t) :
  Forall
    (λ h, api (Holding.coin_id h) = Raised
          ∨ ∃ body, api (Holding.coin_id h) = Returned body
              ∧ (body !! Holding.coin_id h = None
                 ∨ body !! Holding.coin_id h = Some ∅))
    (Portfolio.holdings p) →
  calculate_portfolio_value api p = Some (Valuation.mk 0 0 0 0 []).
Proof.
  intros Hall. rewrite calculate_portfolio_value_eq, rows_unpriced.
  - reflexivity.
  - eapply Forall_impl; [exact Hall|]. intros h. apply get_price_unanswered.
Qed.

(** The property with three holdings and a service that is down. *)
Lemma valuate_unanswered_witness :
  calculate_portfolio_value offline (portfolio stocked)
  = Some (Valuation.mk 0 0 0 0 []).
Proof.
  apply (valuate_unanswered offline (portfolio stocked)).
  simpl. repeat constructor.
Defined.

Lemma sum_snoc xs x : sum (xs ++ [x]) = sum xs + x.
Proof. rewrite sum_app. unfold sum at 2. simpl. ring. Qed.

Lemma rows_snoc_priced (api : service) hs h :
  priced api h →
  rows api (hs ++ [h]) = rows api hs ++ [row_of h (get_price api (Holding.coin_id h))].
Proof. intros Hp. by rewrite rows_app, rows_cons_priced. Qed.

Lemma rows_snoc_unpriced (api : service) hs h :
  ¬ priced api h → rows api (hs ++ [h]) = rows api hs.
Proof.
  intros Hp. by rewrite rows_app, rows_cons_unpriced, rows_nil, app_nil_r.
Qed.

(** X2. What [add_holding] does to the valuation. If [get_price] answers
    the empty record for the new coin, the valuation is the one from
    before the call. Otherwise it has one more row, at the end, for the
    new holding, and [total_value] and [total_invested] grow by that
    row's [amount * usd] and [amount * buy_price]. *)
Theorem valuate_after_add `{Json} (api : service)
    (coin_id coin_name symbol : string) (amount buy_price : Qc) (w : World) :
  let w' := add_holding coin_id coin_name symbol amount buy_price w in
  ∃ v v', calculate_portfolio_value api (portfolio w) = Some v
    ∧ calculate_portfolio_value api (portfolio w') = Some v'
    ∧ (get_price api coin_id = ∅ → v' = v)
    ∧ (get_price api coin_id ≠ ∅ →
       ∃ r, Valuation.holdings v' = Valuation.holdings v ++ [r]
         ∧ ValuationRow.symbol r = upper symbol
         ∧ ValuationRow.current_value r =
             amount * default 0 (get_price api coin_id !! "usd")
         ∧ ValuationRow.invested r = amount * buy_price
         ∧ Valuation.total_value v' =
             Valuation.total_value v + ValuationRow.current_value r
         ∧ Valuation.total_invested v' =
             Valuation.total_invested v + ValuationRow.invested r).
Proof.
  simpl. rewrite !calculate_portfolio_value_eq. simpl.
  eexists _, _. split; [reflexivity|]. split; [reflexivity|]. split.
  - intros Hq. rewrite rows_snoc_unpriced; [done|].
    unfold priced. simpl. by intros [].
  - intros Hq. eexists. rewrite rows_snoc_priced by done. simpl.
    split; [reflexivity|]. simpl.
    rewrite !fmap_app. simpl (_ <$> [_]). by rewrite !sum_snoc.
Qed.

(** The property for a purchase of a coin [market] prices at 10 and for a
    purchase of one it does not know. *)
Lemma valuate_after_add_witness :
  (∃ v v', calculate_portfolio_value market (portfolio bought) = Some v
     ∧ calculate_portfolio_value market
         (portfolio (add_holding "ethereum" "Ethereum" "eth" (num 3) (num 10) bought))
       = Some v'
     ∧ ValuationRow.symbol <$> Valuation.holdings v' = ["BTC"; "ETH"]
     ∧ Valuation.total_value v' = Valuation.total_value v + num 3 * num 10)
  ∧ calculate_portfolio_value market
      (portfolio (add_holding "ghostcoin" "Ghost" "gst" (num 7) (num 9) bought))
    = calculate_portfolio_value market (portfolio bought).
Proof.
  split.
  - destruct (valuate_after_add market "ethereum" "Ethereum" "eth" (num 3) (num 10) bought)
      as (v & v' & Hv & Hv' & _ & Hpriced).
    destruct Hpriced as (r & Hrows & Hsym & Hcv & _ & Htv & _).
    { vm_compute. discriminate. }
    exists v, v'. split; [exact Hv|]. split; [exact Hv'|]. split.
    + rewrite Hrows, fmap_app. simpl. rewrite Hsym.
      rewrite calculate_portfolio_value_eq in Hv. by injection Hv as <-.
    + rewrite Htv, Hcv. reflexivity.
  - destruct (valuate_after_add market "ghostcoin" "Ghost" "gst" (num 7) (num 9) bought)
      as (v & v' & Hv & Hv' & Hsame & _).
    rewrite Hv, Hv'. f_equal. apply Hsame. reflexivity.
Defined.

(** ** Further properties of the holding manager *)

Section ManagerFacts.
Context `{Json}.

(** The two ways [remove_holding] ends. *)
Lemma remove_holding_cases (index : Z) (w : World) :
  let hs := Portfolio.holdings (portfolio w) in
  ((0 ≤ index < Z.of_nat (length hs))%Z
   ∧ ∃ removed, hs !! Z.to_nat index = Some removed
       ∧ remove_holding index w =
           Some (print (Removed (Holding.symbol removed))
                   (save_portfolio
                      (set_portfolio
                         (Portfolio.mk (delete (Z.to_nat index) hs)
                            (Portfolio.transactions (portfolio w))) w))))
  ∨ (¬ (0 ≤ index < Z.of_nat (length hs))%Z
     ∧ remove_holding index w = Some (print InvalidIndex w)).
Proof.
  simpl. unfold remove_holding. destruct (decide _) as [Hin|Hout].
  - left. split; [done|]. destruct (pop_in_range _ _ Hin) as (x & Hx & ->).
    exists x. split; [done|]. simpl. by rewrite delete_take_drop.
  - right. done.
Qed.

Lemma remove_holding_keeps (index : Z) (w : World) :
  ∃ w', remove_holding index w = Some w'
    ∧ filename w' = filename w
    ∧ Portfolio.transactions (portfolio w') = Portfolio.transactions (portfolio w)
    ∧ (length (Portfolio.holdings (portfolio w'))
       ≤ length (Portfolio.holdings (portfolio w)))%nat
    ∧ Portfolio.holdings (portfolio w') ⊆ Portfolio.holdings (portfolio w).
Proof.
  destruct (remove_holding_cases index w) as [(Hin & x & Hx & ->)|(Hout & ->)];
    eexists; (split; [reflexivity|]); simpl.
  - split; [done|]. split; [done|]. split.
    + rewrite length_delete by eauto. lia.
    + apply sublist_subseteq, sublist_delete.
  - done.
Qed.

End ManagerFacts.

Lemma run_cons `{Json} (c : call) (cs : list call) (w : World) :
  run (c :: cs) w = do_call w c ≫= run cs.
Proof. done. Qed.

Lemma do_call_add `{Json} coin_id coin_name symbol amount buy_price (w : World) :
  ∃ w', do_call w (AddHolding coin_id coin_name symbol amount buy_price) = Some w'
    ∧ filename w' = filename w
    ∧ Portfolio.holdings (portfolio w') =
        Portfolio.holdings (portfolio w)
        ++ [Holding.mk coin_id coin_name (upper symbol) amount buy_price
              (clock w (reads w))]
    ∧ Portfolio.transactions (portfolio w') =
        Portfolio.transactions (portfolio w)
        ++ [Transaction.mk "buy" coin_id amount buy_price (clock w (S (reads w)))]
    ∧ files w' !! filename w' = Some (json_dump (portfolio w')).
Proof.
  eexists. split; [reflexivity|]. simpl. by rewrite lookup_insert_eq.
Qed.

(** X5. The log only grows: after any sequence of [add_holding] and
    [remove_holding] calls, whatever the indices, the transactions from
    before are the first transactions after, there is one more per
    [add_holding] call, and at most that many more holdings. *)
Theorem transactions_append_only `{Json} (cs : list call) (w : World) :
  ∃ w', run cs w = Some w'
    ∧ Portfolio.transactions (portfolio w)
        `prefix_of` Portfolio.transactions (portfolio w')
    ∧ length (Portfolio.transactions (portfolio w')) =
        (length (Portfolio.transactions (portfolio w)) + adds cs)%nat
    ∧ (length (Portfolio.holdings (portfolio w'))
       ≤ length (Portfolio.holdings (portfolio w)) + adds cs)%nat.
Proof.
  revert w. induction cs as [|c cs IH]; intros w.
  - exists w. split; [done|]. unfold adds. simpl. split; [done|]. lia.
  - rewrite run_cons. destruct c as [coin_id coin_name symbol amount buy_price|index].
    + destruct (do_call_add coin_id coin_name symbol amount buy_price w)
        as (w1 & -> & _ & Hh & Ht & _).
      destruct (IH w1) as (w' & Hrun & Hpre & Hlen & Hhold).
      exists w'. split; [done|]. rewrite Ht in Hpre, Hlen. rewrite Hh in Hhold.
      rewrite length_app in Hlen, Hhold. simpl in Hlen, Hhold.
      unfold adds in *. rewrite filter_cons_True by done. simpl.
      split; [|lia]. etrans; [|exact Hpre]. by apply prefix_app_r.
    + simpl. destruct (remove_holding_keeps index w) as (w1 & -> & _ & Ht & Hh & _).
      destruct (IH w1) as (w' & Hrun & Hpre & Hlen & Hhold).
      exists w'. split; [done|]. rewrite Ht in Hpre, Hlen.
      unfold adds in *. rewrite filter_cons_False by (simpl; auto).
      split; [done|]. lia.
Qed.

(** X6. Every holding stays backed by the log: if each holding has a
    [buy] transaction with its coin id, amount and price, as in the empty
    portfolio, then so it is after any sequence of [add_holding] and
    [remove_holding] calls. *)
Theorem holdings_stay_logged `{Json} (cs : list call) (w : World) :
  logged (portfolio w) →
  ∃ w', run cs w = Some w' ∧ logged (portfolio w').
Proof.
  revert w. induction cs as [|c cs IH]; intros w Hlog.
  - by exists w.
  - rewrite run_cons. destruct c as [coin_id coin_name symbol amount buy_price|index].
    + destruct (do_call_add coin_id coin_name symbol amount buy_price w)
        as (w1 & -> & _ & Hh & Ht & _).
      apply IH. unfold logged in *. rewrite Hh, Ht. apply Forall_app. split.
      * eapply Forall_impl; [exact Hlog|]. intros h Hex. simpl in Hex.
        rewrite Exists_app. by left.
      * apply Forall_singleton. rewrite Exists_app. right.
        apply Exists_cons_hd. done.
    + simpl. destruct (remove_holding_keeps index w) as (w1 & -> & _ & Ht & _ & Hsub).
      apply IH. unfold logged in *. rewrite Ht.
      apply Forall_forall. intros h Hin.
      rewrite Forall_forall in Hlog. apply Hlog, Hsub, Hin.
Qed.

(** The property from the empty portfolio, through two purchases, a
    rejected removal and a removal. *)
Lemma holdings_stay_logged_witness :
  ∃ w', run [AddHolding "bitcoin" "Bitcoin" "btc" (num 2) (num 100);
             AddHolding "ethereum" "Ethereum" "eth" (num 3) (num 10);
             RemoveHolding 2; RemoveHolding 0] fresh = Some w'
    ∧ logged (portfolio w').
Proof.
  apply (holdings_stay_logged _ fresh). constructor.
Defined.

Lemma init_loads `{Json} (name : string) (w0 w : World) :
  init name w0 = Some w →
  filename w = name ∧ load_portfolio w = Some (portfolio w).
Proof.
  unfold init. destruct (load_portfolio _) as [p|] eqn:Hload; [|done].
  simpl. intros [= <-]. done.
Qed.

Lemma run_in_sync `{Json} (cs : list call) (w : World) :
  (∀ p, json_load (json_dump p) = Some p) →
  load_portfolio w = Some (portfolio w) →
  ∃ w', run cs w = Some w'
    ∧ filename w' = filename w
    ∧ load_portfolio w' = Some (portfolio w').
Proof.
  intros Hjson. revert w. induction cs as [|c cs IH]; intros w Hsync.
  - by exists w.
  - rewrite run_cons. destruct c as [coin_id coin_name symbol amount buy_price|index].
    + destruct (do_call_add coin_id coin_name symbol amount buy_price w)
        as (w1 & -> & Hname & _ & _ & Hfile).
      destruct (IH w1) as (w' & Hrun & Hname' & Hsync').
      { unfold load_portfolio. by rewrite Hfile. }
      exists w'. by rewrite Hname', Hname.
    + simpl.
      destruct (remove_holding_cases index w) as [(_ & x & _ & ->)|(_ & ->)]; simpl.
      * destruct (IH (print (Removed (Holding.symbol x))
                        (save_portfolio
                           (set_portfolio
                              (Portfolio.mk
                                 (delete (Z.to_nat index)
                                    (Portfolio.holdings (portfolio w)))
                                 (Portfolio.transactions (portfolio w))) w))))
          as (w' & Hrun & Hname' & Hsync').
        { unfold load_portfolio. simpl. by rewrite lookup_insert_eq. }
        exists w'. done.
      * destruct (IH (print InvalidIndex w)) as (w' & Hrun & Hname' & Hsync');
          [done|]. exists w'. done.
Qed.

(** X7. Nothing is lost at a restart. With a [json.load] that reads back
    what [json.dump] wrote, start the tracker on a file, present or not,
    and make any sequence of [add_holding] and [remove_holding] calls: a
    tracker started afterwards on the same file loads the portfolio the
    first one held at the end. *)
Theorem restart_reloads `{Json} (name : string) (cs : list call) (w0 w : World) :
  (∀ p, json_load (json_dump p) = Some p) →
  init name w0 = Some w →
  ∃ w' w'', run cs w = Some w'
    ∧ init name w' = Some w''
    ∧ portfolio w'' = portfolio w'.
Proof.
  intros Hjson Hinit. apply init_loads in Hinit as [Hname Hsync].
  destruct (run_in_sync cs w Hjson Hsync) as (w' & Hrun & Hname' & Hsync').
  exists w'. unfold init.
  unfold load_portfolio in *. simpl. rewrite Hname, <- Hname' in *.
  rewrite Hsync'. simpl. eexists. done.
Qed.

(** The property for a first start with no file, two purchases, a
    rejected removal and a removal. *)
Lemma restart_reloads_witness :
  ∃ w' w'',
    run [AddHolding "bitcoin" "Bitcoin" "btc" (num 2) (num 100);
         AddHolding "ethereum" "Ethereum" "eth" (num 3) (num 10);
         RemoveHolding 2; RemoveHolding 0] fresh = Some w'
    ∧ init "portfolio.json" w' = Some w''
    ∧ portfolio w'' = portfolio w'.
Proof.
  apply (restart_reloads "portfolio.json" _ fresh fresh).
  - intros p. reflexivity.
  - reflexivity.
Defined.

(** X8. Removing what was just added is not an undo of the purchase: a
    call of [add_holding] followed by [remove_holding] at the index of the
    new holding leaves the holdings as they were before both calls, while
    the transactions keep the record of the purchase; the two lines
    printed name the symbol in upper case. *)
Theorem add_then_remove `{Json} (coin_id coin_name symbol : string)
    (amount buy_price : Qc) (w : World) :
  let w1 := add_holding coin_id coin_name symbol amount buy_price w in
  let last := Z.of_nat (length (Portfolio.holdings (portfolio w))) in
  ∃ w2, remove_holding last w1 = Some w2
    ∧ Portfolio.holdings (portfolio w2) = Portfolio.holdings (portfolio w)
    ∧ Portfolio.transactions (portfolio w2) =
        Portfolio.transactions (portfolio w)
        ++ [Transaction.mk "buy" coin_id amount buy_price (clock w (S (reads w)))]
    ∧ stdout w2 =
        stdout w ++ [Added amount (upper symbol) buy_price; Removed (upper symbol)].
Proof.
  intros w1 last.
  destruct (remove_holding_cases last w1) as [(_ & x & Hx & ->)|(Hout & _)].
  - eexists. split; [reflexivity|]. unfold w1, last in *. simpl in *.
    rewrite Nat2Z.id in *.
    rewrite list_lookup_middle in Hx by done. injection Hx as <-.
    rewrite delete_middle, app_nil_r, <- app_assoc. done.
  - destruct Hout. unfold w1, last. simpl. rewrite length_app. simpl. lia.
Qed.

(** X9. [remove_holding] with an index in range prints the symbol of the
    holding that stood at that index, writes the new portfolio to the
    file, and shifts the later holdings down by one: the holdings before
    the index are where they were, and the one now at [j], for [j] from
    the index on, is the one that stood at [j + 1]. *)
Theorem remove_holding_shifts `{Json} (index : Z) (w : World) :
  (0 ≤ index < Z.of_nat (length (Portfolio.holdings (portfolio w))))%Z →
  ∃ w' removed, remove_holding index w = Some w'
    ∧ Portfolio.holdings (portfolio w) !! Z.to_nat index = Some removed
    ∧ stdout w' = stdout w ++ [Removed (Holding.symbol removed)]
    ∧ files w' !! filename w' = Some (json_dump (portfolio w'))
    ∧ S (length (Portfolio.holdings (portfolio w'))) =
        length (Portfolio.holdings (portfolio w))
    ∧ (∀ j, (j < Z.to_nat index)%nat →
         Portfolio.holdings (portfolio w') !! j =
           Portfolio.holdings (portfolio w) !! j)
    ∧ (∀ j, (Z.to_nat index ≤ j)%nat →
         Portfolio.holdings (portfolio w') !! j =
           Portfolio.holdings (portfolio w) !! S j).
Proof.
  intros Hin.
  destruct (remove_holding_cases index w) as [(_ & x & Hx & ->)|(Hout & _)];
    [|done].
  eexists _, x. split; [reflexivity|]. split; [done|]. simpl.
  split; [done|]. split; [by rewrite lookup_insert_eq|]. split.
  - rewrite length_delete by eauto.
    apply lookup_lt_Some in Hx. lia.
  - split; intros j Hj.
    + by apply list_lookup_delete_lt.
    + by apply list_lookup_delete_ge.
Qed.

(** The property at the world with three holdings and index 0. *)
Lemma remove_holding_shifts_witness :
  ∃ w', remove_holding 0 stocked = Some w'
    ∧ stdout w' = stdout stocked ++ [Removed "BTC"]
    ∧ Holding.symbol <$> Portfolio.holdings (portfolio w') !! 0%nat = Some "ETH"
    ∧ Holding.symbol <$> Portfolio.holdings (portfolio w') !! 1%nat = Some "DOGE".
Proof.
  destruct (remove_holding_shifts 0 stocked)
    as (w' & x & Hw' & Hx & Hout & _ & _ & _ & Hshift).
  - simpl. lia.
  - exists w'. split; [exact Hw'|]. injection Hx as <-.
    split; [exact Hout|].
    rewrite (Hshift 0%nat), (Hshift 1%nat) by (simpl; lia). split; reflexivity.
Defined.

(** ** Properties of the display and of the menu *)

Lemma enumerate_lookup {A} (xs : list A) (start : Z) (k : nat) :
  enumerate xs start !! k = (λ x, ((start + Z.of_nat k)%Z, x)) <$> xs !! k.
Proof.
  revert start k. induction xs as [|x xs IH]; intros start [|k]; simpl; try done.
  - do 2 f_equal. lia.
  - rewrite IH. destruct (xs !! k); simpl; [|done]. do 2 f_equal. lia.
Qed.

Lemma delete_app_lt {A} (l1 l2 : list A) (i : nat) :
  (i < length l1)%nat → delete i (l1 ++ l2) = delete i l1 ++ l2.
Proof.
  revert i. induction l1 as [|x l1 IH]; intros [|i] Hi; simpl in *; try lia.
  - done.
  - f_equal. apply IH. lia.
Qed.

(** The lines of a portfolio that has holdings. *)
Lemma display_portfolio_holdings (api : service) (p : Portfolio.t) :
  Portfolio.holdings p ≠ [] →
  ∃ head tail,
    display_portfolio api p =
      Some (head
            ++ ((λ '(i, holding),
                   HoldingLine i holding
                     (ge (ValuationRow.profit_loss holding) 0)
                     (ge (ValuationRow.change_24h holding) 0))
                  <$> enumerate (rows api (Portfolio.holdings p)) 1)
            ++ tail)
    ∧ (∀ i r c d, HoldingLine i r c d ∉ head)
    ∧ (∀ i r c d, HoldingLine i r c d ∉ tail).
Proof.
  intros Hne. unfold display_portfolio.
  destruct (Portfolio.holdings p) as [|h hs] eqn:Hhs; [done|].
  rewrite calculate_portfolio_value_eq, Hhs. simpl.
  eexists [Rule; Title; Rule; Header; Dashes], _. split; [reflexivity|].
  split; intros i r c d Hin;
    repeat (apply elem_of_cons in Hin as [Hin|Hin]; [discriminate|]);
    by apply elem_of_nil in Hin.
Qed.

(** A numbered line is on display exactly for the row that stands at
    that number, counting from one. *)
Lemma holding_line_displayed (api : service) (p : Portfolio.t) lines i r c d :
  Portfolio.holdings p ≠ [] →
  display_portfolio api p = Some lines →
  HoldingLine i r c d ∈ lines ↔
    ∃ k, rows api (Portfolio.holdings p) !! k = Some r
      ∧ i = (1 + Z.of_nat k)%Z
      ∧ c = ge (ValuationRow.profit_loss r) 0
      ∧ d = ge (ValuationRow.change_24h r) 0.
Proof.
  intros Hne Hlines.
  destruct (display_portfolio_holdings api p Hne) as (head & tail & Heq & Hhead & Htail).
  rewrite Heq in Hlines. injection Hlines as <-.
  rewrite !elem_of_app, list_elem_of_fmap. split.
  - intros [Hin|[([j r'] & Hline & Hin)|Hin]].
    + by apply Hhead in Hin.
    + injection Hline as -> -> -> ->.
      apply list_elem_of_lookup in Hin as [k Hk].
      rewrite enumerate_lookup in Hk.
      destruct (rows api (Portfolio.holdings p) !! k) as [x|] eqn:Hx; [|done].
      injection Hk as <- <-. by exists k.
    + by apply Htail in Hin.
  - intros (k & Hk & -> & -> & ->). right. left.
    exists ((1 + Z.of_nat k)%Z, r). split; [done|].
    apply list_elem_of_lookup. exists k. by rewrite enumerate_lookup, Hk.
Qed.

(** X10. The number shown beside a holding is its index only while all
    the holdings before it are priced. A priced holding is shown with the
    number of priced holdings before it, plus one, and no other row has
    that number. Typing this number at option 3 removes that holding when
    every holding before it is priced; when one of them is not, it removes
    a holding before it instead, and the one shown stays. *)
Theorem displayed_number_and_index `{Json} (api : service) (w : World)
    (before after : list Holding.t) (h : Holding.t) :
  Portfolio.holdings (portfolio w) = before ++ h :: after →
  priced api h →
  let n := (Z.of_nat (length (filter (priced api) before)) + 1)%Z in
  let shown := row_of h (get_price api (Holding.coin_id h)) in
  ∃ lines w',
    display_portfolio api (portfolio w) = Some lines
    ∧ (∀ r c d, HoldingLine n r c d ∈ lines ↔
         r = shown
         ∧ c = ge (ValuationRow.profit_loss shown) 0
         ∧ d = ge (ValuationRow.change_24h shown) 0)
    ∧ menu_remove (Some n) w = Completed w'
    ∧ (Forall (priced api) before →
       Portfolio.holdings (portfolio w') = before ++ after)
    ∧ (¬ Forall (priced api) before →
       ∃ i, (i < length before)%nat
         ∧ Portfolio.holdings (portfolio w') = delete i before ++ h :: after).
Proof.
  intros Hhs Hp n shown.
  assert (Portfolio.holdings (portfolio w) ≠ []) as Hne.
  { rewrite Hhs. by destruct before. }
  destruct (display_portfolio_holdings api (portfolio w) Hne)
    as (head & tail & Hlines & _ & _).
  set (k := length (filter (priced api) before)).
  assert (rows api (Portfolio.holdings (portfolio w)) !! k = Some shown) as Hk.
  { rewrite Hhs, rows_app, rows_cons_priced by done.
    apply list_lookup_middle. unfold rows. by rewrite length_fmap. }
  assert (k ≤ length before)%nat as Hle by apply length_filter.
  assert (Z.to_nat (n - 1) = k) as Hidx by (unfold n, k; lia).
  destruct (remove_holding_cases (n - 1)%Z w) as [(_ & x & _ & Hrm)|(Hout & _)].
  2:{ destruct Hout. rewrite Hhs, length_app. simpl. unfold n. lia. }
  eexists _, _. split; [exact Hlines|]. split; [|split; [|split]].
  - intros r c d. rewrite (holding_line_displayed api (portfolio w)) by done.
    split.
    + intros (k' & Hk' & Hn & -> & ->).
      assert (k' = k) as -> by (unfold n, k in *; lia).
      rewrite Hk in Hk'. by injection Hk' as <-.
    + intros (-> & -> & ->). exists k. repeat split; [done|]. unfold n, k. lia.
  - unfold menu_remove. by rewrite Hrm.
  - intros Hall. simpl. rewrite Hidx, Hhs.
    apply (filter_length_eq (priced api)) in Hall. unfold k. rewrite Hall.
    apply delete_middle.
  - intros Hsome. exists k. assert (k < length before)%nat as Hlt.
    { destruct (decide (k = length before)) as [Heq|]; [|lia].
      destruct Hsome. by apply (filter_length_eq (priced api)). }
    split; [done|]. simpl. rewrite Hidx, Hhs. by apply delete_app_lt.
Qed.

(** The property at a portfolio whose first holding has no price: the
    display numbers the second holding 1, and typing 1 removes the first
    holding and keeps the one displayed. *)
Lemma displayed_number_and_index_witness :
  ∃ lines w',
    display_portfolio market (portfolio haunted) = Some lines
    ∧ (∃ r c d, HoldingLine 1 r c d ∈ lines ∧ ValuationRow.symbol r = "BTC")
    ∧ menu_remove (Some 1%Z) haunted = Completed w'
    ∧ Holding.symbol <$> Portfolio.holdings (portfolio w') = ["BTC"].
Proof.
  destruct (displayed_number_and_index market haunted
              [Holding.mk "ghostcoin" "Ghost" "GST" (num 7) (num 9) (ticking 0)] []
              (Holding.mk "bitcoin" "Bitcoin" "BTC" (num 2) (num 100) (ticking 2)))
    as (lines & w' & Hlines & Hshown & Hrm & _ & Hother).
  - reflexivity.
  - vm_compute. discriminate.
  - exists lines, w'. split; [exact Hlines|]. split; [|split; [exact Hrm|]].
    + eexists _, _, _. split; [by apply Hshown|]. reflexivity.
    + destruct Hother as (i & Hi & ->).
      * intros Hall. apply Forall_inv in Hall. apply Hall. reflexivity.
      * simpl in Hi. by replace i with 0%nat by lia.
Defined.

(** [search_coin] answers with the first five coins of the body, fewer
    when the body has fewer, and with none otherwise. *)
Lemma search_coin_lookup (api : search_service) (query : string) (k : nat) c :
  search_coin api query !! k = Some c ↔
    ∃ coins, api query = SearchReturned (Some coins)
      ∧ coins !! k = Some c ∧ (k < 5)%nat.
Proof.
  unfold search_coin. destruct (api query) as [|[coins|]]; simpl.
  - split; [done|]. by intros (coins & ? & _).
  - rewrite lookup_take_Some. split.
    + intros [Hc Hk]. by exists coins.
    + intros (coins' & [= <-] & Hc & Hk). done.
  - split; [done|]. by intros (coins & ? & _).
Qed.

(** X11. Option 2 of the menu adds a holding exactly when the number
    typed is between 1 and 5, the search answered with at least that many
    coins, and both the amount and the price typed are numbers; the
    holding added is then for the coin at that place in the answer. The
    round never ends with an exception that is not caught. *)
Theorem menu_add_completes `{Json} (api : search_service) (query : string)
    (typed : option Z) (amount buy_price : option Qc) (w : World) :
  (∀ w', menu_add api query typed amount buy_price w = Completed w' ↔
     ∃ n coins selected a b,
       typed = Some n ∧ (1 ≤ n ≤ 5)%Z
       ∧ api query = SearchReturned (Some coins)
       ∧ coins !! Z.to_nat (n - 1) = Some selected
       ∧ amount = Some a ∧ buy_price = Some b
       ∧ w' = add_holding (Coin.id selected) (Coin.name selected)
                (Coin.symbol selected) a b w)
  ∧ menu_add api query typed amount buy_price w ≠ Uncaught.
Proof.
  unfold menu_add. split.
  - intros w'. split.
    + destruct (search_coin api query) as [|c0 results] eqn:Hres; [done|].
      destruct typed as [n|]; [|done].
      destruct (decide _) as [Hin|]; [|done].
      destruct ((c0 :: results) !! Z.to_nat (n - 1)) as [selected|] eqn:Hsel;
        [|done].
      destruct amount as [a|]; [|done]. destruct buy_price as [b|]; [|done].
      intros [= <-]. rewrite <- Hres in Hsel.
      apply search_coin_lookup in Hsel as (coins & Hapi & Hsel & Hlt).
      exists n, coins, selected, a, b. repeat split; try done; lia.
    + intros (n & coins & selected & a & b & -> & Hn & Hapi & Hsel & -> & -> & ->).
      assert (search_coin api query !! Z.to_nat (n - 1) = Some selected) as Hres.
      { apply search_coin_lookup. exists coins. repeat split; try done. lia. }
      destruct (search_coin api query) as [|c0 results]; [done|].
      apply lookup_lt_Some in Hres as Hlen.
      destruct (decide _) as [_|Hout]; [|destruct Hout; lia].
      by rewrite Hres.
  - destruct (search_coin api query) as [|c0 results]; [done|].
    destruct typed as [n|]; [|done].
    destruct (decide _) as [Hin|]; [|done].
    destruct (lookup_lt_is_Some_2 (c0 :: results) (Z.to_nat (n - 1))) as [x ->];
      [lia|].
    by destruct amount, buy_price.
Qed.

(** The property at a search with seven answers: typing 2 adds the second
    coin, and the sixth and seventh can never be chosen. *)
Lemma menu_add_completes_witness :
  (∃ w', menu_add seven_coins "bitcoin" (Some 2%Z) (Some (num 3)) (Some (num 10)) fresh
         = Completed w'
     ∧ Holding.symbol <$> Portfolio.holdings (portfolio w') = ["BCH"])
  ∧ (∀ a b w', menu_add seven_coins "bitcoin" (Some 6%Z) a b fresh ≠ Completed w').
Proof.
  split.
  - eexists. split.
    + apply (menu_add_completes seven_coins "bitcoin" (Some 2%Z) (Some (num 3))
               (Some (num 10)) fresh).
      eexists 2%Z, _, _, _, _. repeat split; try reflexivity; lia.
    + reflexivity.
  - intros a b w' Hdone.
    apply (menu_add_completes seven_coins "bitcoin" (Some 6%Z) a b fresh) in Hdone
      as (n & _ & _ & _ & _ & [= <-] & Hn & _). lia.
Defined.
